(** * tcms_github_app: installation tokens, installation selection and
      the credential swap of the GitHub client

    A shallow embedding of [tcms_github_app/issues.py].  Python code that
    reads the shared Django cache, the database and the GitHub service is
    written in a state-and-exception monad over an explicit [World]. *)

From stdpp Require Import gmap strings list pretty.
From Stdlib Require Import ZArith Ascii.

Local Open Scope Z_scope.
Local Open Scope string_scope.
Local Open Scope list_scope.

(** ** Python values and exceptions *)

(** The values that travel through the cache and through credentials.  The
    cache stores whatever it is given, so a cached "token" is any value. *)
Inductive pyval : Type :=
  | PyNone
  | PyBool (b : bool)
  | PyInt (n : Z)
  | PyStr (s : string).

#[global] Instance pyval_eq_dec : EqDecision pyval.
Proof. solve_decision. Defined.

(** Python truthiness, as used by [if not token]. *)
Definition truthy (v : pyval) : bool :=
  match v with
  | PyNone => false
  | PyBool b => b
  | PyInt n => negb (Z.eqb n 0)
  | PyStr s => negb (String.eqb s "")
  end.

(** A raised exception: its class and its message. *)
Record exn : Type := Raise { exn_class : string; exn_msg : string }.

#[global] Instance exn_eq_dec : EqDecision exn.
Proof. solve_decision. Defined.

(** [Exception('...')] and [KeyError('...')]. *)
Definition Exception (msg : string) : exn := Raise "Exception" msg.
Definition KeyError (key : string) : exn := Raise "KeyError" key.

(** ** Records of the database *)

(** Modelled from the spec: the [AppInstallation] model, imported by
    [issues.py] from [tcms_github_app.models] but declared outside the
    sources at hand.  The spec's Installation is
    {tenant_id, installation_id, sender}; the field names are the ones
    [issues.py] uses.  [sender] is compared with [UserSocialAuth.uid]. *)
Module AppInstallation.
Record t : Type := Build {
  pk : Z;
  installation : Z;
  sender : string;
  tenant_pk : Z
}.
End AppInstallation.

#[global] Instance AppInstallation_eq_dec : EqDecision AppInstallation.t.
Proof. solve_decision. Defined.

Record User : Type := { user_pk : Z; username : string }.

(** [social_django.models.UserSocialAuth]: the external identity linked to
    a user, with the provider's data ([extra_data] is a JSON object). *)
Module UserSocialAuth.
Record t : Type := Build {
  user : User;
  uid : string;
  extra_data : gmap string pyval
}.
End UserSocialAuth.

(** [models.WebhookPayload]: "Holds information about received webhooks".
    [payload] is the JSON document as received. *)
Module WebhookPayload.
Record t : Type := Build {
  action : string;
  sender : string;
  received_on : Z;
  payload : string
}.
End WebhookPayload.

(** ** The GitHub service and the PyGithub objects around it *)

(** The constructor arguments that [GithubKiwiTCMSBot.__init__] hands on
    unchanged, both to [github.Github] and to the bot's [Requester]. *)
Record ClientOptions : Type := {
  password : pyval;
  jwt : pyval;
  base_url : string;
  timeout : Z;
  client_id : pyval;
  client_secret : pyval;
  user_agent : string;
  per_page : Z;
  verify : bool;
  retry : pyval
}.

(** [github.Requester.Requester]: the transport, holding the credential. *)
Record Requester : Type := {
  login_or_token : pyval;
  options : ClientOptions
}.

(** What GitHub answers for a repository. *)
Record RepoData : Type := { full_name : string; repo_private : bool }.

(** [github.InstallationAuthorization]: the answer of the token issuer. *)
Record InstallationAuthorization : Type := { token : pyval; expires_at : Z }.

(** [github.GithubIntegration]: the external token issuer.  Its answer may
    depend on the calls made so far (rate limits, revoked installations),
    so it is a function of the call history and the installation id. *)
Record GithubIntegration : Type := {
  issue : list Z -> Z -> exn + InstallationAuthorization
}.

(** One HTTP request sent to GitHub: the credential it was sent with. *)
Record ApiRequest : Type := {
  credential : pyval;
  verb : string;
  url : string
}.

(** ** The world: cache, clock, database and the traffic to GitHub *)

Record CacheEntry : Type := { value : pyval; expires : Z }.

Record World : Type := {
  cache : gmap string CacheEntry;          (* django.core.cache.cache *)
  now : Z;                                 (* time.time(), in seconds *)
  issued : list Z;                         (* calls of get_access_token *)
  requests : list ApiRequest;              (* requests sent to the API *)
  app_installations : list AppInstallation.t;   (* AppInstallation.objects *)
  social_auths : list UserSocialAuth.t;         (* UserSocialAuth.objects *)
  webhook_payloads : list WebhookPayload.t      (* WebhookPayload.objects *)
}.

Definition with_cache (c : gmap string CacheEntry) (w : World) : World :=
  {| cache := c; now := now w; issued := issued w; requests := requests w;
     app_installations := app_installations w;
     social_auths := social_auths w;
     webhook_payloads := webhook_payloads w |}.

Definition with_issued (l : list Z) (w : World) : World :=
  {| cache := cache w; now := now w; issued := l; requests := requests w;
     app_installations := app_installations w;
     social_auths := social_auths w;
     webhook_payloads := webhook_payloads w |}.

Definition with_requests (l : list ApiRequest) (w : World) : World :=
  {| cache := cache w; now := now w; issued := issued w; requests := l;
     app_installations := app_installations w;
     social_auths := social_auths w;
     webhook_payloads := webhook_payloads w |}.

(** ** The monad of Python code: state, and either a value or an exception *)

Definition M (A : Type) : Type := World -> (exn + A) * World.

Definition ret {A} (a : A) : M A := fun w => (inr a, w).

Definition raise {A} (e : exn) : M A := fun w => (inl e, w).

Definition bind {A B} (m : M A) (k : A -> M B) : M B :=
  fun w =>
    match m w with
    | (inr a, w') => k a w'
    | (inl e, w') => (inl e, w')
    end.

Declare Scope py_scope.
Delimit Scope py_scope with py.
Notation "x <~ m ;; k" := (bind m (fun x => k))
  (at level 100, m at next level, right associativity) : py_scope.
Notation "m ;;; k" := (bind m (fun _ => k))
  (at level 100, right associativity) : py_scope.
Local Open Scope py_scope.

Definition get_world : M World := fun w => (inr w, w).

(** ** The Django cache *)

(** An entry is served only before its expiry time. *)
Definition fresh (t : Z) (e : CacheEntry) : bool := Z.ltb t (expires e).

(** What the cache holds under [key] at the time of the world: the value
    of a fresh entry, [None] for an absent or an expired one. *)
Definition cached (key : string) (w : World) : pyval :=
  match cache w !! key with
  | Some e => if fresh (now w) e then value e else PyNone
  | None => PyNone
  end.

(** [cache.get(key)] *)
Definition cache_get (key : string) : M pyval :=
  fun w => (inr (cached key w), w).

(** [cache.set(key, value, timeout)]. *)
Definition cache_set (key : string) (v : pyval) (ttl : Z) : M unit :=
  fun w =>
    (inr tt,
     with_cache (<[key := {| value := v; expires := now w + ttl |}]> (cache w)) w).

(** ** The token issuer *)

(** [gh_app.get_access_token(installation_id)]: one call to GitHub, which
    is recorded whether it succeeds or raises. *)
Definition get_access_token (gh_app : GithubIntegration) (installation_id : Z)
  : M InstallationAuthorization :=
  fun w =>
    (issue gh_app (issued w) installation_id,
     with_issued (issued w ++ [installation_id]) w).

(** ** Integration._find_token *)

(** The comment in [_find_token]: "token expires after 1 hr". *)
Definition TOKEN_LIFETIME : Z := 3600.

(** The literal passed to [cache.set]: "cache it for 50 mins". *)
Definition TOKEN_CACHE_TTL : Z := 3000.

(** ["token-for-%d" % installation.installation] *)
Definition cache_key_for (installation_id : Z) : string :=
  "token-for-" +:+ pretty installation_id.

Definition _find_token (gh_app : GithubIntegration)
    (installation : AppInstallation.t) : M pyval :=
  let cache_key := cache_key_for (AppInstallation.installation installation) in
  token0 <~ cache_get cache_key ;;
  if negb (truthy token0) then
    auth <~ get_access_token gh_app (AppInstallation.installation installation) ;;
    let token1 := token auth in
    cache_set cache_key token1 TOKEN_CACHE_TTL ;;;
    ret token1
  else
    ret token0.

(** ** Integration._rpc_connection *)

(** Django settings read by the integration and by the webhook. *)
Record Settings : Type := {
  KIWI_GITHUB_APP_ID : Z;
  KIWI_GITHUB_APP_PRIVATE_KEY : string;
  KIWI_GITHUB_APP_SECRET : string
}.

(** What [issues.py] takes from the [github] package and the service
    behind it: the constructor of the issuer, the defaults of
    [github.MainClass] and the answer of the API to a repository lookup
    made with a given credential. *)
Record GithubLibrary : Type := {
  new_GithubIntegration : Z -> string -> GithubIntegration;
  DEFAULT_BASE_URL : string;
  DEFAULT_TIMEOUT : Z;
  DEFAULT_PER_PAGE : Z;
  fetch_repo : pyval -> string -> exn + RepoData;
  (* what [github.Requester.Requester(...)] raises for a credential and
     these arguments, if anything: a credential it cannot put into the
     Authorization header, a base URL with an unknown scheme *)
  Requester_rejects : pyval -> ClientOptions -> option exn
}.

(** [self.request]: the tenant and the user of the current request. *)
Record HttpRequest : Type := {
  request_tenant_pk : Z;      (* self.request.tenant.pk *)
  request_user : User         (* self.request.user *)
}.

(** [user.social_auth]: the related manager, the identities linked to
    this user. *)
Definition social_auth (u : User) (w : World) : list UserSocialAuth.t :=
  filter (fun sa => user_pk (UserSocialAuth.user sa) = user_pk u)
         (social_auths w).

(** [AppInstallation.objects.filter(tenant_pk=pk)] *)
Definition tenant_installations (pk : Z) (w : World) : list AppInstallation.t :=
  filter (fun i => AppInstallation.tenant_pk i = pk) (app_installations w).

(** [installations.filter(sender=uid)] *)
Definition sent_by (uid : string) (installations : list AppInstallation.t)
  : list AppInstallation.t :=
  filter (fun i => AppInstallation.sender i = uid) installations.

(** The first half of [_rpc_connection]: from the query on
    [AppInstallation.objects] to [installations.first()].  A query set is
    a list of rows in primary-key order: [filter] keeps rows, [count] is
    [length], [first] is [head]. *)
Definition _rpc_connection_installation (request : HttpRequest)
  : M AppInstallation.t :=
  w <~ get_world ;;
  let installations0 := tenant_installations (request_tenant_pk request) w in
  let installations1 :=
    if decide (1 < length installations0)%nat then
      let social_user := head (social_auth (request_user request) w) in
      match social_user with
      | Some su => sent_by (UserSocialAuth.uid su) installations0
      | None => installations0
      end
    else installations0 in
  if decide (length installations1 ≠ 1%nat) then
    raise (Exception "Cannot find GitHub App installation")
  else
    match head installations1 with
    | Some installation => ret installation
    | None =>
        (* [first()] gave None: the attribute access in _find_token fails *)
        raise (Raise "AttributeError"
                 "'NoneType' object has no attribute 'installation'")
    end.

(** ** GithubKiwiTCMSBot *)

(** [github.Github] keeps its transport in a private [__requester];
    the subclass adds [bot_requester], [None] by default. *)
Record GithubKiwiTCMSBot : Type := {
  requester : Requester;
  bot_requester : option Requester
}.

(** [github.Repository.Repository]: the transport that its methods use,
    its URL, and its attributes once they have been fetched. *)
Record Repository : Type := {
  _requester : Requester;
  repo_url : string;
  repo_attrs : option RepoData
}.

Definition set_requester (rq : Requester) (repo : Repository) : Repository :=
  {| _requester := rq; repo_url := repo_url repo;
     repo_attrs := repo_attrs repo |}.

(** [str(v)], the text of a value in the message of an exception. *)
Definition pystr (v : pyval) : string :=
  match v with
  | PyNone => "None"
  | PyBool true => "True"
  | PyBool false => "False"
  | PyInt n => pretty n
  | PyStr s => s
  end.

(** [AssertionError(v)], raised by [assert cond, v]. *)
Definition AssertionError (msg : string) : exn := Raise "AssertionError" msg.

(** [v is None or isinstance(v, str)] *)
Definition none_or_str (v : pyval) : bool :=
  match v with
  | PyNone | PyStr _ => true
  | PyBool _ | PyInt _ => false
  end.

(** [v is None or isinstance(v, int)]; a bool is an int. *)
Definition none_or_int (v : pyval) : bool :=
  match v with
  | PyNone | PyInt _ | PyBool _ => true
  | PyStr _ => false
  end.

(** The assertions at the head of [github.Github.__init__]: the first
    one that fails, if any.  Each carries the offending value, but the
    one on [retry], which has no message. *)
Definition Github_init_assertion (token0 : pyval) (opts : ClientOptions)
  : option exn :=
  if negb (none_or_str token0) then Some (AssertionError (pystr token0))
  else if negb (none_or_str (password opts)) then
    Some (AssertionError (pystr (password opts)))
  else if negb (none_or_str (jwt opts)) then
    Some (AssertionError (pystr (jwt opts)))
  else if negb (none_or_str (client_id opts)) then
    Some (AssertionError (pystr (client_id opts)))
  else if negb (none_or_str (client_secret opts)) then
    Some (AssertionError (pystr (client_secret opts)))
  else if negb (none_or_int (retry opts)) then Some (AssertionError "")
  else None.

Section Github.
Variable github : GithubLibrary.
Variable settings : Settings.

(** The default arguments of [GithubKiwiTCMSBot.__init__]. *)
Definition default_options : ClientOptions :=
  {| password := PyNone; jwt := PyNone;
     base_url := DEFAULT_BASE_URL github;
     timeout := DEFAULT_TIMEOUT github;
     client_id := PyNone; client_secret := PyNone;
     user_agent := "PyGithub/Python";
     per_page := DEFAULT_PER_PAGE github;
     verify := true; retry := PyNone |}.

(** [Requester.requestJsonAndCheck("GET", url)]: one request, sent with
    the credential of the transport and recorded in the world. *)
Definition requestJsonAndCheck (rq : Requester) (v u : string) : M RepoData :=
  fun w =>
    (fetch_repo github (login_or_token rq) u,
     with_requests
       (requests w ++ [{| credential := login_or_token rq;
                          verb := v; url := u |}]) w).

(** [github.Requester.Requester(login_or_token, password, ...)]: the
    transport keeps the arguments it was given, unless it rejects them. *)
Definition new_Requester (token0 : pyval) (opts : ClientOptions) : M Requester :=
  match Requester_rejects github token0 opts with
  | Some e => raise e
  | None => ret {| login_or_token := token0; options := opts |}
  end.

(** [github.Github.__init__]: the arguments are asserted to have their
    types, in the order of the parameters ([base_url], [timeout] and
    [user_agent] have theirs by the types of [ClientOptions]), and the
    transport is built. *)
Definition Github_init (token0 : pyval) (opts : ClientOptions) : M Requester :=
  match Github_init_assertion token0 opts with
  | Some e => raise e
  | None => new_Requester token0 opts
  end.

(** [GithubKiwiTCMSBot.__init__(login_or_token, ...)] *)
Definition GithubKiwiTCMSBot_init (token0 : pyval) (opts : ClientOptions)
  : M GithubKiwiTCMSBot :=
  super <~ Github_init token0 opts ;;
  w <~ get_world ;;
  let social_user :=
    head (filter (fun sa => username (UserSocialAuth.user sa) = "kiwitcms-bot")
                 (social_auths w)) in
  match social_user with
  | Some su =>
      match UserSocialAuth.extra_data su !! "access_token" with
      | Some access_token =>
          bot <~ new_Requester access_token opts ;;
          ret {| requester := super; bot_requester := Some bot |}
      | None => raise (KeyError "access_token")
      end
  | None => ret {| requester := super; bot_requester := None |}
  end.

(** [github.Github.get_repo]: the URL is built from the name or the id;
    a lazy lookup sends nothing, an eager one fetches the repository. *)
Definition url_of (full_name_or_id : string + Z) : string :=
  match full_name_or_id with
  | inl name => "/repos/" +:+ name
  | inr id => "/repositories/" +:+ pretty id
  end.

Definition Github_get_repo (self : GithubKiwiTCMSBot)
    (full_name_or_id : string + Z) (lazy : bool) : M Repository :=
  let u := url_of full_name_or_id in
  if lazy then
    ret {| _requester := requester self; repo_url := u; repo_attrs := None |}
  else
    data <~ requestJsonAndCheck (requester self) "GET" u ;;
    ret {| _requester := requester self; repo_url := u;
           repo_attrs := Some data |}.

(** [repo.private]: an attribute of a lazy repository is fetched on
    first use, with the transport the repository holds at that time. *)
Definition Repository_private (repo : Repository) : M (bool * Repository) :=
  match repo_attrs repo with
  | Some data => ret (repo_private data, repo)
  | None =>
      data <~ requestJsonAndCheck (_requester repo) "GET" (repo_url repo) ;;
      ret (repo_private data,
           {| _requester := _requester repo; repo_url := repo_url repo;
              repo_attrs := Some data |})
  end.

(** [GithubKiwiTCMSBot.get_repo] *)
Definition get_repo (self : GithubKiwiTCMSBot)
    (full_name_or_id : string + Z) (lazy : bool) : M Repository :=
  repo <~ Github_get_repo self full_name_or_id lazy ;;
  pr <~ Repository_private repo ;;
  let '(private, repo) := pr in
  (* only change on public repos and if token is defined *)
  if negb private then
    match bot_requester self with
    | Some bot => ret (set_requester bot repo)
    | None => ret repo
    end
  else ret repo.


(** The whole of [_rpc_connection]. *)
Definition _rpc_connection (request : HttpRequest) : M GithubKiwiTCMSBot :=
  installation <~ _rpc_connection_installation request ;;
  let gh_app :=
    new_GithubIntegration github (KIWI_GITHUB_APP_ID settings)
                          (KIWI_GITHUB_APP_PRIVATE_KEY settings) in
  token0 <~ _find_token gh_app installation ;;
  GithubKiwiTCMSBot_init token0 default_options.
End Github.

(** ** The webhook endpoint *)

(** An inbound POST: its headers and its raw body. *)
Record WebhookPost : Type := {
  headers : gmap string string;
  body : string
}.

Record HttpResponse : Type := { status_code : Z; content : string }.

(** [django.http.HttpResponseForbidden()] *)
Definition HttpResponseForbidden : HttpResponse :=
  {| status_code := 403; content := "" |}.

(** [assertContains(response, text)]: the text occurs in the content. *)
Fixpoint contains (needle hay : string) : bool :=
  String.prefix needle hay ||
  match hay with
  | EmptyString => false
  | String _ rest => contains needle rest
  end.

Section Webhook.
(** The supplied capability [verify_signature(secret, raw_body, signature)]. *)
Variable verify_signature : string -> string -> string -> bool.
(** How the stored [action] and [sender] are read off a payload, and the
    answer to an event that was stored: the spec leaves them open. *)
Variable payload_action payload_sender : string -> string.
Variable stored_response : HttpResponse.
Variable settings : Settings.

Definition WebhookPayload_create (raw : string) : M unit :=
  fun w =>
    (inr tt,
     {| cache := cache w; now := now w; issued := issued w;
        requests := requests w;
        app_installations := app_installations w;
        social_auths := social_auths w;
        webhook_payloads :=
          webhook_payloads w ++
          [WebhookPayload.Build (payload_action raw) (payload_sender raw)
                                (now w) raw] |}).

(** Modelled from the spec: the view behind [github_app_webhook], which
    is exercised by [tests/test_views.py] but is not among the sources.
    Spec, section 6: "header carries an HMAC signature over the raw body
    using a shared secret; missing or invalid signature -> reject with a
    forbidden response; a ping event -> respond with a simple
    acknowledgement containing pong; all other events are persisted as
    WebhookPayload records".  The header names are those the tests send
    (HTTP_X_HUB_SIGNATURE, HTTP_X_GITHUB_EVENT). *)
Definition github_app_webhook (post : WebhookPost) : M HttpResponse :=
  match headers post !! "X-Hub-Signature" with
  | None => ret HttpResponseForbidden
  | Some signature =>
      if verify_signature (KIWI_GITHUB_APP_SECRET settings) (body post)
                          signature
      then
        if decide (headers post !! "X-GitHub-Event" = Some "ping") then
          ret {| status_code := 200; content := "pong" |}
        else
          WebhookPayload_create (body post) ;;;
          ret stored_response
      else ret HttpResponseForbidden
  end.
End Webhook.

(** ** Sample data *)

Definition empty_world : World :=
  {| cache := ∅; now := 1000; issued := []; requests := [];
     app_installations := []; social_auths := []; webhook_payloads := [] |}.

(** Installation 7 of tenant 10, installed by GitHub user 1002300. *)
Definition installation_7 : AppInstallation.t :=
  AppInstallation.Build 1 7 "1002300" 10.

(** A world whose cache holds [v] for installation 7 until time [exp]. *)
Definition world_caching (v : pyval) (exp : Z) : World :=
  with_cache {[ cache_key_for 7 := {| value := v; expires := exp |} ]}
             empty_world.

(** An issuer that answers every call with the same token, and one that
    refuses every call. *)
Definition issuer_ok : GithubIntegration :=
  {| issue := fun _ _ =>
       inr {| token := PyStr "ghs_issued"; expires_at := 1000 + 3600 |} |}.

Definition issuer_down : GithubIntegration :=
  {| issue := fun _ _ => inl (Raise "GithubException" "401 Bad credentials") |}.

(** Two users: the one who installed the app as GitHub user 1002300,
    and one with another GitHub identity. *)
Definition alice : User := {| user_pk := 1; username := "alice" |}.
Definition bob : User := {| user_pk := 2; username := "bob" |}.

Definition alice_identity : UserSocialAuth.t :=
  UserSocialAuth.Build alice "1002300" ∅.
Definition bob_identity : UserSocialAuth.t :=
  UserSocialAuth.Build bob "2004600" ∅.

(** A second installation on tenant 10, made by GitHub user 3006900. *)
Definition installation_8 : AppInstallation.t :=
  AppInstallation.Build 2 8 "3006900" 10.

Definition world_of (rows : list AppInstallation.t)
    (ids : list UserSocialAuth.t) : World :=
  {| cache := ∅; now := 1000; issued := []; requests := [];
     app_installations := rows; social_auths := ids;
     webhook_payloads := [] |}.

Definition request_of (pk : Z) (u : User) : HttpRequest :=
  {| request_tenant_pk := pk; request_user := u |}.

(** The account of the bot, with the token of its GitHub login. *)
Definition kiwitcms_bot : User := {| user_pk := 3; username := "kiwitcms-bot" |}.
Definition bot_identity : UserSocialAuth.t :=
  UserSocialAuth.Build kiwitcms_bot "40404040"
    {[ "access_token" := PyStr "gho_bot" ]}.

(** A GitHub with one public and one private repository. *)
Definition sample_github : GithubLibrary :=
  {| new_GithubIntegration := fun _ _ => issuer_ok;
     DEFAULT_BASE_URL := "https://api.github.com";
     DEFAULT_TIMEOUT := 15;
     DEFAULT_PER_PAGE := 30;
     fetch_repo := fun _ u =>
       if String.eqb u "/repos/kiwitcms/Kiwi" then
         inr {| full_name := "kiwitcms/Kiwi"; repo_private := false |}
       else if String.eqb u "/repos/kiwitcms/enterprise" then
         inr {| full_name := "kiwitcms/enterprise"; repo_private := true |}
       else inl (Raise "UnknownObjectException" "404 Not Found");
     Requester_rejects := fun tok _ =>
       if none_or_str tok then None
       else Some (Raise "TypeError" "can only concatenate str to str") |}.

(** A stand-in for the HMAC check, good enough to run the endpoint on an
    example: the signature of a body is the secret followed by the body. *)
Definition sample_verify (secret raw signature : string) : bool :=
  String.eqb signature ("sha1=" +:+ secret +:+ raw).

Definition sample_settings : Settings :=
  {| KIWI_GITHUB_APP_ID := 12345;
     KIWI_GITHUB_APP_PRIVATE_KEY := "private-key";
     KIWI_GITHUB_APP_SECRET := "s3cret" |}.

Definition ping_body : string :=
  "{zen: Mind your words, they are important.}".

Definition sample_stored : HttpResponse :=
  {| status_code := 200; content := "ok" |}.

(** The world after a successful issue for [installation_id]: one more
    call of the issuer, and its token stored under the key of the
    installation for [TOKEN_CACHE_TTL] seconds. *)
Definition after_issue (installation_id : Z) (auth : InstallationAuthorization)
    (w : World) : World :=
  with_cache
    (<[cache_key_for installation_id :=
         {| value := token auth; expires := now w + TOKEN_CACHE_TTL |}]>
       (cache w))
    (with_issued (issued w ++ [installation_id]) w).

(** Time passing between two requests: the clock moves on by [dt]
    seconds and nothing else changes. *)
Definition tick (dt : Z) (w : World) : World :=
  {| cache := cache w; now := now w + dt; issued := issued w;
     requests := requests w;
     app_installations := app_installations w;
     social_auths := social_auths w;
     webhook_payloads := webhook_payloads w |}.

(** ** Integration.is_adding_testcase_to_issue_disabled *)

(** [self.bug_system]: the tracker record of Kiwi TCMS, of which the
    integration reads [base_url], a string or [None]. *)
Module BugSystem.
Record t : Type := Build { base_url : pyval }.
End BugSystem.

(** [return not self.bug_system.base_url] *)
Definition is_adding_testcase_to_issue_disabled (bug_system : BugSystem.t)
  : bool :=
  negb (truthy (BugSystem.base_url bug_system)).

(** ** WebhookPayload.__str__ *)

Section Str.
(** [datetime.isoformat], of the standard library. *)
Variable isoformat : Z -> string.

(** ["WebhookPayload '%s' from '%s' on '%s'" %
     (self.action, self.sender, self.received_on.isoformat())] *)
Definition WebhookPayload_str (p : WebhookPayload.t) : string :=
  "WebhookPayload '" +:+ WebhookPayload.action p +:+
  "' from '" +:+ WebhookPayload.sender p +:+
  "' on '" +:+ isoformat (WebhookPayload.received_on p) +:+ "'".
End Str.

(** The text has no apostrophe. *)
Fixpoint no_apostrophe (s : string) : bool :=
  match s with
  | EmptyString => true
  | String c rest => negb (Ascii.eqb c "'"%char) && no_apostrophe rest
  end.

(** A day written as seconds since the epoch, for the examples. *)
Definition sample_isoformat (t : Z) : string := "T+" +:+ pretty t.

(** A user with two linked identities, the second of which made
    installation 8. *)
Definition carol : User := {| user_pk := 4; username := "carol" |}.
Definition carol_first_identity : UserSocialAuth.t :=
  UserSocialAuth.Build carol "5550001" ∅.
Definition carol_second_identity : UserSocialAuth.t :=
  UserSocialAuth.Build carol "3006900" ∅.

(** The bot's identity as it is when the provider sent no token. *)
Definition bot_identity_without_token : UserSocialAuth.t :=
  UserSocialAuth.Build kiwitcms_bot "40404040" ∅.

(** An issuer whose token is the empty string. *)
Definition issuer_empty : GithubIntegration :=
  {| issue := fun _ _ => inr {| token := PyStr ""; expires_at := 4600 |} |}.

(** A client built from an issued token, without and with the bot. *)
Definition client_without_bot : GithubKiwiTCMSBot :=
  {| requester :=
       {| login_or_token := PyStr "ghs_issued";
          options := default_options sample_github |};
     bot_requester := None |}.

Definition client_with_bot : GithubKiwiTCMSBot :=
  {| requester :=
       {| login_or_token := PyStr "ghs_issued";
          options := default_options sample_github |};
     bot_requester :=
       Some {| login_or_token := PyStr "gho_bot";
               options := default_options sample_github |} |}.

(** The public repository, as a client without bot gets it. *)
Definition kiwi_repo_for (rq : Requester) : Repository :=
  {| _requester := rq;
     repo_url := "/repos/kiwitcms/Kiwi";
     repo_attrs :=
       Some {| full_name := "kiwitcms/Kiwi"; repo_private := false |} |}.

(** The same GitHub while it refuses to issue tokens. *)
Definition github_refusing : GithubLibrary :=
  {| new_GithubIntegration := fun _ _ => issuer_down;
     DEFAULT_BASE_URL := DEFAULT_BASE_URL sample_github;
     DEFAULT_TIMEOUT := DEFAULT_TIMEOUT sample_github;
     DEFAULT_PER_PAGE := DEFAULT_PER_PAGE sample_github;
     fetch_repo := fetch_repo sample_github;
     Requester_rejects := Requester_rejects sample_github |}.

(** Tenant 10 with its one installation and the bot's login; the second
    world has the token of the installation in the cache. *)
Definition tenant_world : World := world_of [installation_7] [bot_identity].

Definition tenant_world_cached : World :=
  with_cache
    {[ cache_key_for 7 := {| value := PyStr "ghs_cached"; expires := 4000 |} ]}
    tenant_world.

(** ** Properties of the token cache *)

Section TokenCache.
Variable gh_app : GithubIntegration.
Variable installation : AppInstallation.t.

Local Abbreviation id := (AppInstallation.installation installation).
Local Abbreviation key := (cache_key_for id).

Lemma cached_fresh w e :
  cache w !! key = Some e -> fresh (now w) e = true -> cached key w = value e.
Proof. intros Hk Hf. unfold cached. now rewrite Hk, Hf. Qed.

Lemma cached_absent_or_expired w :
  cache w !! key = None \/
    (exists e, cache w !! key = Some e /\ expires e <= now w) ->
  cached key w = PyNone.
Proof.
  unfold cached, fresh. intros [-> | (e & -> & Hexp)]; [reflexivity|].
  destruct (Z.ltb_spec (now w) (expires e)); [lia | reflexivity].
Qed.

(** The hit path: a truthy answer of the cache is returned as it is and
    the world is left alone. *)
Lemma find_token_hit_run w :
  truthy (cached key w) = true ->
  _find_token gh_app installation w = (inr (cached key w), w).
Proof.
  intros Ht. unfold _find_token, bind, cache_get.
  now rewrite Ht.
Qed.

(** The miss path: whenever the answer of the cache is falsy, the issuer
    is called once; its failure is the outcome, its token is stored and
    returned. *)
Lemma find_token_miss_run w :
  truthy (cached key w) = false ->
  _find_token gh_app installation w =
    match issue gh_app (issued w) id with
    | inl err => (inl err, with_issued (issued w ++ [id]) w)
    | inr auth => (inr (token auth), after_issue id auth w)
    end.
Proof.
  intros Ht. unfold _find_token, bind, cache_get, get_access_token.
  rewrite Ht. cbn.
  destruct (issue gh_app (issued w) id) as [err | auth]; reflexivity.
Qed.

(** C1 (as amended): for every installation whose cache entry is fresh
    and holds a truthy value (a non-empty token), [_find_token] returns
    the cached value and leaves the world as it was: the issuer is not
    called and nothing is written. *)
Theorem find_token_cache_hit w e :
  cache w !! key = Some e ->
  fresh (now w) e = true ->
  truthy (value e) = true ->
  _find_token gh_app installation w = (inr (value e), w) /\
  issued (snd (_find_token gh_app installation w)) = issued w.
Proof.
  intros Hk Hf Ht.
  pose proof (cached_fresh w e Hk Hf) as Hc.
  rewrite find_token_hit_run; rewrite Hc; auto.
Qed.

(** C2: for every installation whose cache entry is absent or expired,
    [_find_token] calls the issuer exactly once; when the issuer answers,
    its token is returned and stored under the key of the installation
    with a time to live of 3000 seconds, which is less than the 3600
    seconds the token lives: the stored entry stops being served before
    the token expires. *)
Theorem find_token_miss_issues_once w :
  cache w !! key = None \/
    (exists e, cache w !! key = Some e /\ expires e <= now w) ->
  issued (snd (_find_token gh_app installation w)) = issued w ++ [id] /\
  forall auth, issue gh_app (issued w) id = inr auth ->
    exists w',
      _find_token gh_app installation w = (inr (token auth), w') /\
      issued w' = issued w ++ [id] /\
      cache w' !! key =
        Some {| value := token auth; expires := now w + TOKEN_CACHE_TTL |} /\
      TOKEN_CACHE_TTL = 3000 /\ TOKEN_LIFETIME = 3600 /\
      TOKEN_CACHE_TTL < TOKEN_LIFETIME /\
      (forall t e', cache w' !! key = Some e' -> fresh t e' = true ->
                    t < now w + TOKEN_LIFETIME).
Proof.
  intros Hmiss.
  pose proof (cached_absent_or_expired w Hmiss) as Hc.
  assert (Hrun := find_token_miss_run w). rewrite Hc in Hrun.
  specialize (Hrun eq_refl). split.
  - rewrite Hrun. destruct (issue gh_app (issued w) id); reflexivity.
  - intros auth Hauth. rewrite Hauth in Hrun.
    exists (after_issue id auth w).
    assert (Hstored : cache (after_issue id auth w) !! key =
              Some {| value := token auth;
                      expires := now w + TOKEN_CACHE_TTL |})
      by (cbn; apply lookup_insert_eq).
    repeat split; try assumption; try reflexivity.
    intros t e' He' Hfr. rewrite Hstored in He'. injection He' as <-.
    unfold fresh in Hfr. cbn in Hfr. apply Z.ltb_lt in Hfr.
    unfold TOKEN_CACHE_TTL, TOKEN_LIFETIME in *. lia.
Qed.

(** C6: when the cache has no truthy answer and the call of the issuer
    fails, [_find_token] ends with that very exception, the issuer has
    been called once and not again, and the cache is what it was. *)
Theorem find_token_issuer_failure w err :
  truthy (cached key w) = false ->
  issue gh_app (issued w) id = inl err ->
  exists w',
    _find_token gh_app installation w = (inl err, w') /\
    cache w' = cache w /\
    issued w' = issued w ++ [id].
Proof.
  intros Hmiss Hfail.
  exists (with_issued (issued w ++ [id]) w).
  rewrite (find_token_miss_run w Hmiss), Hfail. auto.
Qed.

(** C10: a fresh entry whose value is falsy (the empty string, 0, False,
    None) is handled as a miss: the issuer is called once, and when it
    answers its token is returned and overwrites the entry. *)
Theorem find_token_falsy_entry_is_miss w e :
  cache w !! key = Some e ->
  fresh (now w) e = true ->
  truthy (value e) = false ->
  issued (snd (_find_token gh_app installation w)) = issued w ++ [id] /\
  fst (_find_token gh_app installation w) =
    fst (_find_token gh_app installation
           (with_cache (delete key (cache w)) w)) /\
  forall auth, issue gh_app (issued w) id = inr auth ->
    _find_token gh_app installation w =
      (inr (token auth), after_issue id auth w) /\
    cache (after_issue id auth w) !! key =
      Some {| value := token auth; expires := now w + TOKEN_CACHE_TTL |}.
Proof.
  intros Hk Hf Ht.
  assert (Hc : truthy (cached key w) = false)
    by (rewrite (cached_fresh w e Hk Hf); exact Ht).
  rewrite (find_token_miss_run w Hc). split; [| split].
  - destruct (issue gh_app (issued w) id); reflexivity.
  - rewrite find_token_miss_run.
    + cbn. destruct (issue gh_app (issued w) id); reflexivity.
    + rewrite cached_absent_or_expired; [reflexivity |].
      left. cbn. apply lookup_delete_eq.
  - intros auth ->. split; [reflexivity|]. cbn. apply lookup_insert_eq.
Qed.
End TokenCache.

(** The key of an installation is its own: two installations share a
    cache entry only if they have the same installation id. *)
Lemma cache_key_for_inj : Inj (=) (=) cache_key_for.
Proof.
  intros a b H. unfold cache_key_for in H.
  apply (inj (String.app "token-for-")) in H. now apply (inj pretty) in H.
Qed.

(** C1 (as stated) fails: the cache holds a fresh entry for installation 7
    whose value is the empty string; [_find_token] does not return it but
    calls the issuer. *)
Lemma find_token_fresh_entry_not_always_served :
  ~ (forall gh_app installation w e,
       cache w !! cache_key_for (AppInstallation.installation installation)
         = Some e ->
       fresh (now w) e = true ->
       exists w',
         _find_token gh_app installation w = (inr (value e), w') /\
         issued w' = issued w).
Proof.
  intros H.
  destruct (H issuer_ok installation_7 (world_caching (PyStr "") 4000)
              {| value := PyStr ""; expires := 4000 |})
    as (w' & Hrun & _); [reflexivity | reflexivity |].
  vm_compute in Hrun. discriminate Hrun.
Qed.

Lemma find_token_cache_hit_witness :
  _find_token issuer_ok installation_7 (world_caching (PyStr "ghs_cached") 4000)
    = (inr (PyStr "ghs_cached"), world_caching (PyStr "ghs_cached") 4000) /\
  issued (snd (_find_token issuer_ok installation_7
                 (world_caching (PyStr "ghs_cached") 4000))) = [].
Proof.
  apply (find_token_cache_hit issuer_ok installation_7
           (world_caching (PyStr "ghs_cached") 4000)
           {| value := PyStr "ghs_cached"; expires := 4000 |});
    reflexivity.
Defined.

Lemma find_token_miss_issues_once_witness :
  cache empty_world !! cache_key_for 7 = None /\
  issued (snd (_find_token issuer_ok installation_7 empty_world)) = [7].
Proof.
  split; [reflexivity|].
  apply (proj1 (find_token_miss_issues_once issuer_ok installation_7
                  empty_world (or_introl eq_refl))).
Defined.

Lemma find_token_issuer_failure_witness :
  exists w',
    _find_token issuer_down installation_7 empty_world
      = (inl (Raise "GithubException" "401 Bad credentials"), w') /\
    cache w' = cache empty_world /\
    issued w' = [7].
Proof.
  apply (find_token_issuer_failure issuer_down installation_7 empty_world
           (Raise "GithubException" "401 Bad credentials"));
    reflexivity.
Defined.

Lemma find_token_falsy_entry_is_miss_witness :
  truthy (PyStr "") = false /\
  issued (snd (_find_token issuer_ok installation_7
                 (world_caching (PyStr "") 4000))) = [7].
Proof.
  split; [reflexivity|].
  apply (proj1 (find_token_falsy_entry_is_miss issuer_ok installation_7
                  (world_caching (PyStr "") 4000)
                  {| value := PyStr ""; expires := 4000 |}
                  eq_refl eq_refl eq_refl)).
Defined.

Example cache_key_for_7 : cache_key_for 7 = "token-for-7".
Proof. reflexivity. Qed.

Example cache_key_for_negative : cache_key_for (-12) = "token-for--12".
Proof. reflexivity. Qed.

(** An entry is expired at the very second of its expiry time. *)
Example find_token_expired_entry :
  let run := _find_token issuer_ok installation_7
               (world_caching (PyStr "ghs_old") 1000) in
  fst run = inr (PyStr "ghs_issued") /\ issued (snd run) = [7].
Proof. vm_compute. split; reflexivity. Qed.

(** A fresh entry holding the empty string: the token is issued and
    replaces the entry, which is then good for 3000 seconds. *)
Example find_token_overwrites_empty_entry :
  let run := _find_token issuer_ok installation_7 (world_caching (PyStr "") 4000) in
  fst run = inr (PyStr "ghs_issued") /\
  cache (snd run) !! cache_key_for 7
    = Some {| value := PyStr "ghs_issued"; expires := 4000 |}.
Proof. vm_compute. split; reflexivity. Qed.

(** ** Properties of the installation selection *)

Section Resolver.
Variable request : HttpRequest.
Variable w : World.

Local Abbreviation candidates :=
  (tenant_installations (request_tenant_pk request) w).
Local Abbreviation linked := (head (social_auth (request_user request) w)).
Local Abbreviation not_found :=
  (Exception "Cannot find GitHub App installation").

(** The candidates after the narrowing step of [_rpc_connection]. *)
Local Abbreviation narrowed :=
  (if decide (1 < length candidates)%nat then
     match linked with
     | Some su => sent_by (UserSocialAuth.uid su) candidates
     | None => candidates
     end
   else candidates).

(** The selection reads the database and changes nothing; its outcome is
    decided by the shape of the narrowed candidates alone. *)
Lemma rpc_installation_run :
  _rpc_connection_installation request w =
    (match narrowed with
     | [i] => inr i
     | _ => inl not_found
     end, w).
Proof.
  unfold _rpc_connection_installation, bind, get_world.
  destruct narrowed as [| a [| b l]]; cbn; reflexivity.
Qed.

Lemma rpc_installation_one i :
  narrowed = [i] -> _rpc_connection_installation request w = (inr i, w).
Proof. intros H. rewrite rpc_installation_run. now rewrite H. Qed.

Lemma rpc_installation_not_one :
  length narrowed ≠ 1%nat ->
  _rpc_connection_installation request w = (inl not_found, w).
Proof.
  intros H. rewrite rpc_installation_run.
  destruct narrowed as [| a [| b l]]; cbn in *; congruence.
Qed.

(** A list of length one whose member is known. *)
Lemma singleton_of_member (l : list AppInstallation.t) i :
  length l = 1%nat -> i ∈ l -> l = [i].
Proof.
  destruct l as [| a [| b l]]; cbn; intros Hlen Hin; try discriminate.
  apply list_elem_of_singleton in Hin. now subst.
Qed.

(** C3: when the tenant has exactly one installation, it is selected
    whoever the current user is; the sender filter is not applied. *)
Theorem rpc_installation_single i :
  candidates = [i] ->
  _rpc_connection_installation request w = (inr i, w) /\
  narrowed = candidates /\
  forall user,
    _rpc_connection_installation
      {| request_tenant_pk := request_tenant_pk request;
         request_user := user |} w = (inr i, w).
Proof.
  intros Hone.
  assert (Hany : forall user,
    _rpc_connection_installation
      {| request_tenant_pk := request_tenant_pk request;
         request_user := user |} w = (inr i, w)).
  { intros user. unfold _rpc_connection_installation, bind, get_world.
    cbn. rewrite Hone. cbn.
    destruct (decide (1 < 1)%nat); [lia | reflexivity]. }
  split; [| split; [| exact Hany]].
  - destruct request as [pk user]. apply Hany.
  - rewrite Hone. cbn. destruct (decide (1 < 1)%nat); [lia | reflexivity].
Qed.

(** C4 (as amended): with two or more installations on the tenant, a
    current user whose first linked identity (the one that
    [social_auth.first()] gives) is [su], and exactly one candidate whose
    sender is that identity, the selection returns that candidate. *)
Theorem rpc_installation_by_sender su i :
  (2 <= length candidates)%nat ->
  linked = Some su ->
  length (sent_by (UserSocialAuth.uid su) candidates) = 1%nat ->
  i ∈ candidates ->
  AppInstallation.sender i = UserSocialAuth.uid su ->
  _rpc_connection_installation request w = (inr i, w).
Proof.
  intros Hmany Hlinked Hcount Hin Hsender.
  apply rpc_installation_one. rewrite Hlinked.
  destruct (decide (1 < length candidates)%nat); [| lia].
  apply singleton_of_member; [exact Hcount |].
  unfold sent_by. apply list_elem_of_filter. split; assumption.
Qed.

(** C5: the selection raises ["Cannot find GitHub App installation"]
    exactly when the number of candidates left after the narrowing is not
    one, that is: the tenant has no installation, or it has several and
    the user has no linked identity, or it has several and the senders
    equal to the identity are none or more than one.  In every other
    case the result is a candidate of the tenant: there is no other
    exception and no fallback value. *)
Theorem rpc_installation_raises_iff :
  (fst (_rpc_connection_installation request w) = inl not_found <->
     length narrowed ≠ 1%nat) /\
  (length narrowed ≠ 1%nat <->
     candidates = [] \/
     ((1 < length candidates)%nat /\
      (linked = None \/
       exists su, linked = Some su /\
         length (sent_by (UserSocialAuth.uid su) candidates) ≠ 1%nat))) /\
  (fst (_rpc_connection_installation request w) = inl not_found \/
   exists i, fst (_rpc_connection_installation request w) = inr i /\
             narrowed = [i] /\ i ∈ candidates).
Proof.
  split; [| split].
  - rewrite rpc_installation_run.
    destruct narrowed as [| a [| b l]]; cbn; split; intros H;
      congruence || lia.
  - destruct (decide (1 < length candidates)%nat) as [Hgt | Hle].
    + destruct linked as [su |]; split.
      * intros H. right. split; [exact Hgt |]. right. now exists su.
      * intros [Hnil | (_ & [Hnone | (su' & [= <-] & H)])]; try discriminate;
          [rewrite Hnil in Hgt; cbn in Hgt; lia | exact H].
      * intros _. right. split; [exact Hgt | now left].
      * intros _. lia.
    + split.
      * intros H. left. destruct candidates as [| a [| b l]];
          cbn in *; [reflexivity | congruence | lia].
      * intros [Hnil | (Hgt & _)]; [now rewrite Hnil | lia].
  - rewrite rpc_installation_run.
    destruct narrowed as [| a [| b l]] eqn:Hn; cbn; auto.
    right. exists a. repeat split.
    assert (Ha : a ∈ narrowed) by (rewrite Hn; apply list_elem_of_here).
    destruct (decide (1 < length candidates)%nat); [| exact Ha].
    destruct linked; [| exact Ha].
    unfold sent_by in Ha. apply list_elem_of_filter in Ha. tauto.
Qed.
End Resolver.

(** Bob's linked identity is not the sender of the only installation of
    tenant 10, and the installation is selected for him all the same. *)
Lemma rpc_installation_single_witness :
  AppInstallation.sender installation_7 ≠ UserSocialAuth.uid bob_identity /\
  _rpc_connection_installation (request_of 10 bob)
    (world_of [installation_7] [alice_identity; bob_identity])
  = (inr installation_7,
     world_of [installation_7] [alice_identity; bob_identity]).
Proof.
  split; [discriminate |].
  apply (proj1 (rpc_installation_single (request_of 10 bob)
                  (world_of [installation_7] [alice_identity; bob_identity])
                  installation_7 eq_refl)).
Defined.

(** Two installations on tenant 10; Alice made the first one. *)
Lemma rpc_installation_by_sender_witness :
  _rpc_connection_installation (request_of 10 alice)
    (world_of [installation_7; installation_8] [alice_identity; bob_identity])
  = (inr installation_7,
     world_of [installation_7; installation_8] [alice_identity; bob_identity]).
Proof.
  apply (rpc_installation_by_sender (request_of 10 alice)
           (world_of [installation_7; installation_8]
                     [alice_identity; bob_identity])
           alice_identity installation_7).
  - vm_compute. lia.
  - reflexivity.
  - reflexivity.
  - apply list_elem_of_here.
  - reflexivity.
Defined.

(** C4 (as stated) fails: Carol has two linked identities and made
    installation 8 under the second one.  The tenant has two
    installations and exactly one of them has a sender equal to a linked
    identity of hers, yet the selection raises: only her first identity
    is compared with the senders. *)
Lemma rpc_installation_any_identity_not_enough :
  ~ (forall request w su i,
       (2 <= length (tenant_installations (request_tenant_pk request) w))%nat ->
       su ∈ social_auth (request_user request) w ->
       length (sent_by (UserSocialAuth.uid su)
                 (tenant_installations (request_tenant_pk request) w)) = 1%nat ->
       i ∈ tenant_installations (request_tenant_pk request) w ->
       AppInstallation.sender i = UserSocialAuth.uid su ->
       fst (_rpc_connection_installation request w) = inr i).
Proof.
  intros H.
  specialize (H (request_of 10 carol)
                (world_of [installation_7; installation_8]
                          [carol_first_identity; carol_second_identity])
                carol_second_identity installation_8).
  assert (Habs : fst (_rpc_connection_installation (request_of 10 carol)
                        (world_of [installation_7; installation_8]
                                  [carol_first_identity; carol_second_identity]))
                 = inr installation_8).
  { apply H.
    - vm_compute. lia.
    - vm_compute. apply list_elem_of_further, list_elem_of_here.
    - reflexivity.
    - vm_compute. apply list_elem_of_further, list_elem_of_here.
    - reflexivity. }
  vm_compute in Habs. discriminate Habs.
Qed.

(** The scenarios of the spec: two installations and no matching sender,
    two installations and a user without identity, no installation. *)
Example rpc_installation_no_matching_sender :
  fst (_rpc_connection_installation (request_of 10 bob)
         (world_of [installation_7; installation_8]
                   [alice_identity; bob_identity]))
  = inl (Exception "Cannot find GitHub App installation").
Proof. reflexivity. Qed.

Example rpc_installation_no_identity :
  fst (_rpc_connection_installation (request_of 10 bob)
         (world_of [installation_7; installation_8] [alice_identity]))
  = inl (Exception "Cannot find GitHub App installation").
Proof. reflexivity. Qed.

Example rpc_installation_none_on_tenant :
  fst (_rpc_connection_installation (request_of 11 alice)
         (world_of [installation_7; installation_8] [alice_identity]))
  = inl (Exception "Cannot find GitHub App installation").
Proof. reflexivity. Qed.

(** ** Properties of the client and its credentials *)

Section Client.
Variable github : GithubLibrary.

(** The constructor step by step: the assertions of [github.Github], the
    transport of the client, the identity of the bot, its access token,
    the transport of the bot.  The first step that fails decides, and no
    step changes the world. *)
Lemma init_run token0 opts w :
  GithubKiwiTCMSBot_init github token0 opts w =
    match Github_init_assertion token0 opts with
    | Some e => (inl e, w)
    | None =>
        match Requester_rejects github token0 opts with
        | Some e => (inl e, w)
        | None =>
            match head (filter (fun sa => username (UserSocialAuth.user sa)
                                          = "kiwitcms-bot")
                               (social_auths w)) with
            | Some su =>
                match UserSocialAuth.extra_data su !! "access_token" with
                | Some tok =>
                    match Requester_rejects github tok opts with
                    | Some e => (inl e, w)
                    | None =>
                        (inr {| requester :=
                                  {| login_or_token := token0; options := opts |};
                                bot_requester :=
                                  Some {| login_or_token := tok;
                                          options := opts |} |}, w)
                    end
                | None => (inl (KeyError "access_token"), w)
                end
            | None =>
                (inr {| requester :=
                          {| login_or_token := token0; options := opts |};
                        bot_requester := None |}, w)
            end
        end
    end.
Proof.
  unfold GithubKiwiTCMSBot_init, Github_init, new_Requester, bind, get_world,
    ret, raise.
  destruct (Github_init_assertion token0 opts); [reflexivity |].
  destruct (Requester_rejects github token0 opts); [reflexivity |].
  destruct (head _) as [su |]; [| reflexivity].
  destruct (UserSocialAuth.extra_data su !! "access_token") as [tok |];
    [| reflexivity].
  destruct (Requester_rejects github tok opts); reflexivity.
Qed.

(** [__init__] keeps the given token for the client itself and, when
    the bot has a linked identity, builds a second transport from the
    access token of that identity. *)
Lemma init_requesters token0 opts w self w' :
  GithubKiwiTCMSBot_init github token0 opts w = (inr self, w') ->
  w' = w /\
  requester self = {| login_or_token := token0; options := opts |} /\
  forall bot, bot_requester self = Some bot ->
    exists su,
      head (filter (fun sa => username (UserSocialAuth.user sa) = "kiwitcms-bot")
                   (social_auths w)) = Some su /\
      UserSocialAuth.extra_data su !! "access_token"
        = Some (login_or_token bot) /\
      options bot = opts.
Proof.
  rewrite init_run.
  destruct (Github_init_assertion token0 opts); [discriminate |].
  destruct (Requester_rejects github token0 opts); [discriminate |].
  destruct (head _) as [su |] eqn:Hsu.
  - destruct (UserSocialAuth.extra_data su !! "access_token")
      as [tok |] eqn:Htok; [| discriminate].
    destruct (Requester_rejects github tok opts); [discriminate |].
    intros [= <- <-]; repeat split.
    cbn. intros bot [= <-]. exists su. cbn. auto.
  - intros [= <- <-]. repeat split. cbn. discriminate.
Qed.

(** One request recorded after those of [w]. *)
Local Abbreviation sent rq v u w :=
  (with_requests
     (requests w ++ [{| credential := login_or_token rq;
                        verb := v; url := u |}]) w).

(** [get_repo] sends exactly one request, with the credential of the
    client, whether the lookup is lazy or not; the repository it returns
    carries the bot's transport when it is public and the bot has one,
    and the client's transport otherwise. *)
Lemma get_repo_run self full_name_or_id lazy w :
  get_repo github self full_name_or_id lazy w =
    match fetch_repo github (login_or_token (requester self))
                     (url_of full_name_or_id) with
    | inl e => (inl e, sent (requester self) "GET" (url_of full_name_or_id) w)
    | inr data =>
        (inr {| _requester :=
                  if repo_private data then requester self
                  else default (requester self) (bot_requester self);
                repo_url := url_of full_name_or_id;
                repo_attrs := Some data |},
         sent (requester self) "GET" (url_of full_name_or_id) w)
    end.
Proof.
  unfold get_repo, Github_get_repo, Repository_private, requestJsonAndCheck,
    bind, ret.
  destruct lazy; cbn;
    destruct (fetch_repo github _ _) as [e | data]; cbn; try reflexivity;
    destruct (repo_private data); cbn; try reflexivity;
    destruct (bot_requester self); reflexivity.
Qed.


(** The client that [_rpc_connection] builds holds the token that
    [_find_token] found for the selected installation. *)
Lemma rpc_connection_token settings request w self w' :
  _rpc_connection github settings request w = (inr self, w') ->
  exists installation tok w1,
    _rpc_connection_installation request w = (inr installation, w) /\
    _find_token
      (new_GithubIntegration github (KIWI_GITHUB_APP_ID settings)
                             (KIWI_GITHUB_APP_PRIVATE_KEY settings))
      installation w = (inr tok, w1) /\
    login_or_token (requester self) = tok.
Proof.
  unfold _rpc_connection, bind.
  destruct (_rpc_connection_installation request w) as [[e | i] w0] eqn:Hsel;
    [discriminate |].
  assert (w0 = w) as ->
    by (rewrite rpc_installation_run in Hsel; now injection Hsel).
  destruct (_find_token _ i w) as [[e | tok] w1] eqn:Hfind; [discriminate |].
  intros Hinit. exists i, tok, w1.
  split; [reflexivity |]. split; [exact Hfind |].
  destruct (init_requesters _ _ _ _ _ Hinit) as (_ & -> & _). reflexivity.
Qed.
End Client.


Example get_repo_private_keeps_token :
  let self :=
    {| requester :=
         {| login_or_token := PyStr "ghs_issued";
            options := default_options sample_github |};
       bot_requester :=
         Some {| login_or_token := PyStr "gho_bot";
                 options := default_options sample_github |} |} in
  fst (get_repo sample_github self (inl "kiwitcms/enterprise") true empty_world)
    = inr {| _requester := requester self;
             repo_url := "/repos/kiwitcms/enterprise";
             repo_attrs := Some {| full_name := "kiwitcms/enterprise";
                                   repo_private := true |} |} /\
  fst (get_repo sample_github self (inl "kiwitcms/Kiwi") true empty_world)
    = inr {| _requester :=
               {| login_or_token := PyStr "gho_bot";
                  options := default_options sample_github |};
             repo_url := "/repos/kiwitcms/Kiwi";
             repo_attrs := Some {| full_name := "kiwitcms/Kiwi";
                                   repo_private := false |} |}.
Proof. split; reflexivity. Qed.

(** ** Properties of the webhook endpoint *)

Section WebhookProperties.
Variable verify_signature : string -> string -> string -> bool.
Variable payload_action payload_sender : string -> string.
Variable stored_response : HttpResponse.
Variable settings : Settings.

Local Abbreviation endpoint :=
  (github_app_webhook verify_signature payload_action payload_sender
                      stored_response settings).

(** C8: a POST whose signature header is missing, or whose signature
    does not verify against the raw body, is answered with 403 Forbidden
    and nothing is stored. *)
Theorem webhook_rejects_bad_signature post w :
  headers post !! "X-Hub-Signature" = None \/
    (exists signature,
       headers post !! "X-Hub-Signature" = Some signature /\
       verify_signature (KIWI_GITHUB_APP_SECRET settings) (body post)
                        signature = false) ->
  exists response w',
    endpoint post w = (inr response, w') /\
    response = HttpResponseForbidden /\
    status_code response = 403 /\
    webhook_payloads w' = webhook_payloads w.
Proof.
  intros Hbad. exists HttpResponseForbidden, w.
  unfold github_app_webhook.
  destruct Hbad as [-> | (signature & -> & ->)]; auto.
Qed.

(** C9: a POST with a valid signature and the event [ping] is answered
    with status 200 and a body that contains "pong". *)
Theorem webhook_ping_pong post w signature :
  headers post !! "X-Hub-Signature" = Some signature ->
  verify_signature (KIWI_GITHUB_APP_SECRET settings) (body post) signature
    = true ->
  headers post !! "X-GitHub-Event" = Some "ping" ->
  exists response,
    endpoint post w = (inr response, w) /\
    status_code response = 200 /\
    contains "pong" (content response) = true.
Proof.
  intros Hsig Hvalid Hping.
  exists {| status_code := 200; content := "pong" |}.
  unfold github_app_webhook. rewrite Hsig, Hvalid.
  destruct (decide _) as [_ | Hne]; [auto | contradiction].
Qed.
End WebhookProperties.

Lemma webhook_rejects_bad_signature_witness :
  exists response w',
    github_app_webhook sample_verify (fun _ => "") (fun _ => "") sample_stored
      sample_settings
      {| headers := ∅; body := ping_body |} empty_world = (inr response, w') /\
    response = HttpResponseForbidden /\
    status_code response = 403 /\
    webhook_payloads w' = [].
Proof.
  apply (webhook_rejects_bad_signature sample_verify (fun _ => "") (fun _ => "")
           sample_stored sample_settings
           {| headers := ∅; body := ping_body |} empty_world).
  left. reflexivity.
Defined.

Lemma webhook_ping_pong_witness :
  exists response,
    github_app_webhook sample_verify (fun _ => "") (fun _ => "") sample_stored
      sample_settings
      {| headers := {[ "X-Hub-Signature" := "sha1=s3cret" +:+ ping_body;
                       "X-GitHub-Event" := "ping" ]};
         body := ping_body |} empty_world = (inr response, empty_world) /\
    status_code response = 200 /\
    contains "pong" (content response) = true.
Proof.
  apply (webhook_ping_pong sample_verify (fun _ => "") (fun _ => "")
           sample_stored sample_settings
           {| headers := {[ "X-Hub-Signature" := "sha1=s3cret" +:+ ping_body;
                            "X-GitHub-Event" := "ping" ]};
              body := ping_body |} empty_world
           ("sha1=s3cret" +:+ ping_body));
    reflexivity.
Defined.

(** Any other signed event is stored. *)
Example webhook_stores_other_events :
  webhook_payloads
    (snd (github_app_webhook sample_verify (fun _ => "created")
            (fun _ => "atodorov") sample_stored sample_settings
            {| headers := {[ "X-Hub-Signature" := "sha1=s3cret" +:+ ping_body;
                             "X-GitHub-Event" := "installation" ]};
               body := ping_body |} empty_world))
  = [WebhookPayload.Build "created" "atodorov" 1000 ping_body].
Proof. reflexivity. Qed.

(** ** Further properties of the token cache *)

Section TokenCacheOverTime.
Variable gh_app : GithubIntegration.
Variable installation : AppInstallation.t.

Local Abbreviation id := (AppInstallation.installation installation).
Local Abbreviation key := (cache_key_for id).

(** What the cache answers under the key [dt] seconds after an issue. *)
Lemma cached_after_issue w auth dt :
  cached key (tick dt (after_issue id auth w)) =
    if (dt <? TOKEN_CACHE_TTL)%Z then token auth else PyNone.
Proof.
  unfold cached, fresh. cbn. rewrite lookup_insert_eq. cbn.
  destruct (Z.ltb_spec (now w + dt) (now w + TOKEN_CACHE_TTL));
    destruct (Z.ltb_spec dt TOKEN_CACHE_TTL); try reflexivity; lia.
Qed.

(** X1: after a miss that issued a non-empty token, a second call made
    less than 3000 seconds later returns the same token from the cache:
    the issuer has been called once for the two calls, and the second
    call changes nothing. *)
Theorem find_token_again_within_ttl w auth dt :
  truthy (cached key w) = false ->
  issue gh_app (issued w) id = inr auth ->
  truthy (token auth) = true ->
  0 <= dt < TOKEN_CACHE_TTL ->
  _find_token gh_app installation
    (tick dt (snd (_find_token gh_app installation w)))
  = (inr (token auth), tick dt (snd (_find_token gh_app installation w))) /\
  issued (tick dt (snd (_find_token gh_app installation w)))
  = issued w ++ [id].
Proof.
  intros Hmiss Hauth Htok Hdt.
  rewrite (find_token_miss_run gh_app installation w Hmiss), Hauth. cbn [snd].
  pose proof (cached_after_issue w auth dt) as Hc.
  destruct (Z.ltb_spec dt TOKEN_CACHE_TTL) as [_ | Hge]; [| lia].
  split; [| reflexivity].
  rewrite find_token_hit_run; rewrite Hc; [reflexivity | exact Htok].
Qed.

(** X2: once 3000 seconds have passed since the issue, or when the issued
    token was falsy (an empty string), the next call asks the issuer
    again: the issuer is called a second time, with the first call in its
    history, and its answer is the outcome. *)
Theorem find_token_again_after_ttl w auth dt :
  truthy (cached key w) = false ->
  issue gh_app (issued w) id = inr auth ->
  TOKEN_CACHE_TTL <= dt \/ truthy (token auth) = false ->
  fst (_find_token gh_app installation
         (tick dt (snd (_find_token gh_app installation w))))
  = match issue gh_app (issued w ++ [id]) id with
    | inl err => inl err
    | inr auth' => inr (token auth')
    end /\
  issued (snd (_find_token gh_app installation
                 (tick dt (snd (_find_token gh_app installation w)))))
  = issued w ++ [id; id].
Proof.
  intros Hmiss Hauth Hwhy.
  rewrite (find_token_miss_run gh_app installation w Hmiss), Hauth. cbn [snd].
  assert (Hc : truthy (cached key (tick dt (after_issue id auth w))) = false).
  { rewrite cached_after_issue.
    destruct (Z.ltb_spec dt TOKEN_CACHE_TTL) as [Hlt | _]; [| reflexivity].
    destruct Hwhy as [Hge | Hfalsy]; [lia | exact Hfalsy]. }
  rewrite (find_token_miss_run gh_app installation _ Hc). cbn [issued tick after_issue with_cache with_issued].
  destruct (issue gh_app (issued w ++ [id]) id) as [err | auth'];
    cbn; rewrite <- app_assoc; split; reflexivity.
Qed.

(** X3: a call for one installation leaves the cache entry of every other
    installation as it was, whatever the outcome: the keys of two
    installation ids are different strings. *)
Theorem find_token_other_installations_untouched w
    (other : AppInstallation.t) :
  AppInstallation.installation other ≠ id ->
  cache (snd (_find_token gh_app installation w))
    !! cache_key_for (AppInstallation.installation other)
  = cache w !! cache_key_for (AppInstallation.installation other) /\
  cached (cache_key_for (AppInstallation.installation other))
         (snd (_find_token gh_app installation w))
  = cached (cache_key_for (AppInstallation.installation other)) w.
Proof.
  intros Hne.
  assert (Hkey : key ≠ cache_key_for (AppInstallation.installation other)).
  { intros Heq. apply Hne. symmetry. apply cache_key_for_inj, Heq. }
  assert (Hcache : cache (snd (_find_token gh_app installation w))
            !! cache_key_for (AppInstallation.installation other)
          = cache w !! cache_key_for (AppInstallation.installation other)).
  { destruct (truthy (cached key w)) eqn:Ht.
    - now rewrite (find_token_hit_run gh_app installation w Ht).
    - rewrite (find_token_miss_run gh_app installation w Ht).
      destruct (issue gh_app (issued w) id) as [err | auth]; cbn;
        [reflexivity | now apply lookup_insert_ne]. }
  split; [exact Hcache |].
  unfold cached. rewrite Hcache.
  destruct (truthy (cached key w)) eqn:Ht.
  - now rewrite (find_token_hit_run gh_app installation w Ht).
  - rewrite (find_token_miss_run gh_app installation w Ht).
    destruct (issue gh_app (issued w) id); reflexivity.
Qed.

(** X4: whatever the state of the cache, one call of [_find_token] calls
    the issuer at most once, raises nothing but what the issuer raised,
    writes no cache key but the one of the installation, and touches
    neither the clock, nor any table of the database (installations,
    linked identities, stored webhook payloads), nor the API. *)
Theorem find_token_footprint w :
  (issued (snd (_find_token gh_app installation w)) = issued w \/
   issued (snd (_find_token gh_app installation w)) = issued w ++ [id]) /\
  (forall e, fst (_find_token gh_app installation w) = inl e ->
             issue gh_app (issued w) id = inl e /\
             cache (snd (_find_token gh_app installation w)) = cache w) /\
  (forall k, k ≠ key ->
     cache (snd (_find_token gh_app installation w)) !! k = cache w !! k) /\
  now (snd (_find_token gh_app installation w)) = now w /\
  requests (snd (_find_token gh_app installation w)) = requests w /\
  app_installations (snd (_find_token gh_app installation w))
    = app_installations w /\
  social_auths (snd (_find_token gh_app installation w)) = social_auths w /\
  webhook_payloads (snd (_find_token gh_app installation w))
    = webhook_payloads w.
Proof.
  destruct (truthy (cached key w)) eqn:Ht.
  - rewrite (find_token_hit_run gh_app installation w Ht). cbn.
    repeat split; auto; discriminate.
  - rewrite (find_token_miss_run gh_app installation w Ht).
    destruct (issue gh_app (issued w) id) as [err | auth]; cbn.
    + repeat split; auto; congruence.
    + repeat split; auto; try discriminate.
      intros k Hk. now apply lookup_insert_ne.
Qed.
End TokenCacheOverTime.

Lemma find_token_again_within_ttl_witness :
  _find_token issuer_ok installation_7
    (tick 2999 (snd (_find_token issuer_ok installation_7 empty_world)))
  = (inr (PyStr "ghs_issued"),
     tick 2999 (snd (_find_token issuer_ok installation_7 empty_world))) /\
  issued (tick 2999 (snd (_find_token issuer_ok installation_7 empty_world)))
  = [7].
Proof.
  apply (find_token_again_within_ttl issuer_ok installation_7 empty_world
           {| token := PyStr "ghs_issued"; expires_at := 1000 + 3600 |} 2999);
    [reflexivity | reflexivity | reflexivity | unfold TOKEN_CACHE_TTL; lia].
Defined.

Lemma find_token_again_after_ttl_witness :
  issued (snd (_find_token issuer_ok installation_7
                 (tick 3000 (snd (_find_token issuer_ok installation_7
                                    empty_world)))))
  = [7; 7].
Proof.
  apply (proj2 (find_token_again_after_ttl issuer_ok installation_7
                  empty_world
                  {| token := PyStr "ghs_issued"; expires_at := 1000 + 3600 |}
                  3000 eq_refl eq_refl
                  (or_introl (Z.le_refl TOKEN_CACHE_TTL)))).
Defined.

(** An empty token is stored and never served: the very next call issues
    again. *)
Example find_token_empty_token_is_reissued :
  issued (snd (_find_token issuer_empty installation_7
                 (tick 1 (snd (_find_token issuer_empty installation_7
                                 empty_world)))))
  = [7; 7].
Proof. vm_compute. reflexivity. Qed.

Lemma find_token_other_installations_untouched_witness :
  cache (snd (_find_token issuer_ok installation_8
                (world_caching (PyStr "ghs_cached") 4000)))
    !! cache_key_for 7
  = Some {| value := PyStr "ghs_cached"; expires := 4000 |}.
Proof.
  apply (proj1 (find_token_other_installations_untouched issuer_ok
                  installation_8 (world_caching (PyStr "ghs_cached") 4000)
                  installation_7 ltac:(discriminate))).
Defined.

(** ** Further properties of the installation selection *)

Section ResolverResult.
Variable request : HttpRequest.
Variable w : World.

(** X5: an installation that the selection returns is a row of the table
    and belongs to the tenant of the request: no installation of another
    tenant is ever selected. *)
Theorem rpc_installation_of_tenant i :
  fst (_rpc_connection_installation request w) = inr i ->
  i ∈ app_installations w /\
  AppInstallation.tenant_pk i = request_tenant_pk request.
Proof.
  rewrite rpc_installation_run. cbn [fst].
  set (cands := tenant_installations (request_tenant_pk request) w).
  intros Hsel.
  assert (Hin : i ∈ cands).
  { destruct (decide (1 < length cands)%nat) as [Hgt | Hle].
    - destruct (head (social_auth (request_user request) w)) as [su |].
      + destruct (sent_by (UserSocialAuth.uid su) cands)
          as [| a [| b l]] eqn:Hn; try discriminate.
        injection Hsel as <-.
        assert (Ha : a ∈ sent_by (UserSocialAuth.uid su) cands)
          by (rewrite Hn; apply list_elem_of_here).
        unfold sent_by in Ha. apply list_elem_of_filter in Ha. tauto.
      + destruct cands as [| a [| b l]]; try discriminate.
        injection Hsel as <-. apply list_elem_of_here.
    - destruct cands as [| a [| b l]]; try discriminate.
      injection Hsel as <-. apply list_elem_of_here. }
  unfold cands, tenant_installations in Hin.
  apply list_elem_of_filter in Hin. tauto.
Qed.

(** X6: when the tenant has several installations, the selection succeeds
    only for a user with a linked identity, and the installation it
    returns is the one whose sender is the first linked identity of that
    user. *)
Theorem rpc_installation_ambiguous_needs_sender i :
  (1 < length (tenant_installations (request_tenant_pk request) w))%nat ->
  fst (_rpc_connection_installation request w) = inr i ->
  exists su,
    head (social_auth (request_user request) w) = Some su /\
    user_pk (UserSocialAuth.user su) = user_pk (request_user request) /\
    AppInstallation.sender i = UserSocialAuth.uid su /\
    sent_by (UserSocialAuth.uid su)
            (tenant_installations (request_tenant_pk request) w) = [i].
Proof.
  intros Hgt. rewrite rpc_installation_run. cbn [fst].
  set (cands := tenant_installations (request_tenant_pk request) w) in *.
  destruct (decide (1 < length cands)%nat) as [_ | Hle]; [| lia].
  destruct (head (social_auth (request_user request) w)) as [su |] eqn:Hsu.
  - destruct (sent_by (UserSocialAuth.uid su) cands)
      as [| a [| b l]] eqn:Hn; try discriminate.
    intros [= <-]. exists su.
    assert (Ha : a ∈ sent_by (UserSocialAuth.uid su) cands)
      by (rewrite Hn; apply list_elem_of_here).
    unfold sent_by in Ha. apply list_elem_of_filter in Ha.
    assert (Hmine : su ∈ social_auth (request_user request) w)
      by (apply head_Some_elem_of, Hsu).
    unfold social_auth in Hmine. apply list_elem_of_filter in Hmine.
    repeat split; tauto.
  - destruct cands as [| a [| b l]]; cbn in *; try discriminate; lia.
Qed.
End ResolverResult.

Lemma rpc_installation_of_tenant_witness :
  installation_7 ∈ [installation_7; installation_8] /\
  AppInstallation.tenant_pk installation_7 = 10.
Proof.
  apply (rpc_installation_of_tenant (request_of 10 alice)
           (world_of [installation_7; installation_8]
                     [alice_identity; bob_identity])
           installation_7 eq_refl).
Defined.

Lemma rpc_installation_ambiguous_needs_sender_witness :
  exists su,
    head (social_auth alice
            (world_of [installation_7; installation_8]
                      [alice_identity; bob_identity])) = Some su /\
    user_pk (UserSocialAuth.user su) = 1 /\
    AppInstallation.sender installation_7 = UserSocialAuth.uid su /\
    sent_by (UserSocialAuth.uid su)
      (tenant_installations 10
         (world_of [installation_7; installation_8]
                   [alice_identity; bob_identity])) = [installation_7].
Proof.
  apply (rpc_installation_ambiguous_needs_sender (request_of 10 alice)
           (world_of [installation_7; installation_8]
                     [alice_identity; bob_identity])
           installation_7).
  - vm_compute. lia.
  - reflexivity.
Defined.

(** Only the first linked identity is consulted: Carol made installation 8
    under her second identity, and the selection fails for her. *)
Example rpc_installation_second_identity_ignored :
  fst (_rpc_connection_installation (request_of 10 carol)
         (world_of [installation_7; installation_8]
                   [carol_first_identity; carol_second_identity]))
  = inl (Exception "Cannot find GitHub App installation").
Proof. reflexivity. Qed.

(** ** Properties of the client constructor *)

(** The constructor only reads the database. *)
Lemma init_world github token0 opts w :
  snd (GithubKiwiTCMSBot_init github token0 opts w) = w.
Proof.
  rewrite init_run.
  destruct (Github_init_assertion token0 opts); [reflexivity |].
  destruct (Requester_rejects github token0 opts); [reflexivity |].
  destruct (head _) as [su |]; [| reflexivity].
  destruct (UserSocialAuth.extra_data su !! "access_token") as [tok |];
    [| reflexivity].
  destruct (Requester_rejects github tok opts); reflexivity.
Qed.

(** The first identity of the bot, if any. *)
Lemma head_filter_None {A} (P : A -> Prop) `{!forall x, Decision (P x)}
    (l : list A) :
  head (filter P l) = None <-> forall x, x ∈ l -> ~ P x.
Proof.
  split.
  - intros Hh x Hx HP.
    assert (Hin : x ∈ filter P l) by (apply list_elem_of_filter; auto).
    destruct (filter P l); [inversion Hin | discriminate].
  - intros Hall. destruct (filter P l) as [| a l'] eqn:Hf; [reflexivity |].
    assert (Ha : a ∈ filter P l) by (rewrite Hf; apply list_elem_of_here).
    apply list_elem_of_filter in Ha. destruct Ha as [HP Hin].
    exfalso. exact (Hall a Hin HP).
Qed.

(** X7: [GithubKiwiTCMSBot.__init__] changes nothing, and it raises
    exactly in these cases, the first that applies deciding what is
    raised: an argument fails an assertion of [github.Github.__init__]
    (AssertionError, so for every token that is neither None nor a
    string); the transport of the client rejects its arguments; the first
    identity linked to the user kiwitcms-bot has no access_token in its
    extra data (KeyError('access_token')); the transport of the bot
    rejects that access token. *)
Theorem init_raises_iff github token0 opts w e :
  (fst (GithubKiwiTCMSBot_init github token0 opts w) = inl e <->
     Github_init_assertion token0 opts = Some e \/
     (Github_init_assertion token0 opts = None /\
      Requester_rejects github token0 opts = Some e) \/
     (Github_init_assertion token0 opts = None /\
      Requester_rejects github token0 opts = None /\
      exists su,
        head (filter (fun sa => username (UserSocialAuth.user sa) = "kiwitcms-bot")
                     (social_auths w)) = Some su /\
        (UserSocialAuth.extra_data su !! "access_token" = None /\
           e = KeyError "access_token" \/
         exists tok,
           UserSocialAuth.extra_data su !! "access_token" = Some tok /\
           Requester_rejects github tok opts = Some e))) /\
  (none_or_str token0 = false ->
     fst (GithubKiwiTCMSBot_init github token0 opts w)
       = inl (AssertionError (pystr token0))) /\
  snd (GithubKiwiTCMSBot_init github token0 opts w) = w.
Proof.
  split; [| split; [| apply init_world]].
  - rewrite init_run.
    destruct (Github_init_assertion token0 opts) as [a |].
    { cbn. split.
      - intros [= <-]. now left.
      - intros [[= <-] | [(Hno & _) | (Hno & _)]];
          [reflexivity | discriminate | discriminate]. }
    destruct (Requester_rejects github token0 opts) as [r |].
    { cbn. split.
      - intros [= <-]. right. left. auto.
      - intros [Habs | [(_ & [= <-]) | (_ & Hno & _)]];
          [discriminate | reflexivity | discriminate]. }
    destruct (head _) as [su |] eqn:Hsu.
    + destruct (UserSocialAuth.extra_data su !! "access_token")
        as [tok |] eqn:Htok.
      * destruct (Requester_rejects github tok opts) as [r |] eqn:Hr; cbn;
          split.
        -- intros [= <-]. right. right. repeat split. exists su.
           split; [reflexivity |]. right. exists tok. auto.
        -- intros [Habs | [(_ & Habs) | (_ & _ & su' & [= <-] & Hcase)]];
             try discriminate.
           destruct Hcase as [(Hnone & _) | (tok' & Hsome & Hrej)];
             [congruence |].
           assert (tok' = tok) as -> by congruence. congruence.
        -- discriminate.
        -- intros [Habs | [(_ & Habs) | (_ & _ & su' & [= <-] & Hcase)]];
             try discriminate.
           destruct Hcase as [(Hnone & _) | (tok' & Hsome & Hrej)];
             [congruence |].
           assert (tok' = tok) as -> by congruence. congruence.
      * cbn. split.
        -- intros [= <-]. right. right. repeat split. exists su.
           split; [reflexivity |]. left. auto.
        -- intros [Habs | [(_ & Habs) | (_ & _ & su' & [= <-] & Hcase)]];
             try discriminate.
           destruct Hcase as [(_ & ->) | (tok' & Hsome & _)];
             [reflexivity | congruence].
    + cbn. split; [discriminate |].
      intros [Habs | [(_ & Habs) | (_ & _ & su' & Hsome & _)]];
        discriminate.
  - intros Hbad. rewrite init_run. unfold Github_init_assertion.
    rewrite Hbad. reflexivity.
Qed.

(** A token that is a number is refused by the assertion of the library. *)
Example init_with_number_as_token :
  fst (GithubKiwiTCMSBot_init sample_github (PyInt 5)
         (default_options sample_github)
         (world_of [] [alice_identity; bot_identity]))
  = inl (AssertionError "5").
Proof. reflexivity. Qed.

(** X8: a client that was built has a bot transport exactly when some
    identity is linked to a user named kiwitcms-bot; that transport is
    made with the same options as the client's own (password, jwt, base
    URL, timeout, ...), only the credential differs: it is the
    access_token of the first such identity. *)
Theorem init_bot_requester github token0 opts w self w' :
  GithubKiwiTCMSBot_init github token0 opts w = (inr self, w') ->
  (bot_requester self = None <->
     forall sa, sa ∈ social_auths w ->
       username (UserSocialAuth.user sa) ≠ "kiwitcms-bot") /\
  (forall bot, bot_requester self = Some bot ->
     options bot = options (requester self) /\
     exists su,
       head (filter (fun sa => username (UserSocialAuth.user sa) = "kiwitcms-bot")
                    (social_auths w)) = Some su /\
       UserSocialAuth.extra_data su !! "access_token"
         = Some (login_or_token bot)).
Proof.
  intros Hinit.
  destruct (init_requesters _ _ _ _ _ _ Hinit) as (_ & Hself & Hbot).
  split.
  - rewrite <- head_filter_None.
    revert Hinit. rewrite init_run.
    destruct (Github_init_assertion token0 opts); [discriminate |].
    destruct (Requester_rejects github token0 opts); [discriminate |].
    destruct (head _) as [su |] eqn:Hsu.
    + destruct (UserSocialAuth.extra_data su !! "access_token") as [tok |];
        [| discriminate].
      destruct (Requester_rejects github tok opts); [discriminate |].
      intros [= <- <-]; cbn; split; intros Habs; [discriminate Habs |].
      pose proof (eq_trans (eq_sym Hsu) Habs) as Hno. discriminate Hno.
    + intros [= <- <-]. cbn. split; [intros _; exact Hsu | reflexivity].
  - intros bot Hsome. destruct (Hbot bot Hsome) as (su & Hsu & Hacc & Hopt).
    rewrite Hself. cbn. split; [exact Hopt |]. eauto.
Qed.

Lemma init_bot_requester_witness :
  options {| login_or_token := PyStr "gho_bot";
             options := default_options sample_github |}
  = default_options sample_github /\
  exists su,
    head (filter (fun sa => username (UserSocialAuth.user sa) = "kiwitcms-bot")
                 [alice_identity; bot_identity]) = Some su /\
    UserSocialAuth.extra_data su !! "access_token" = Some (PyStr "gho_bot").
Proof.
  apply (proj2 (init_bot_requester sample_github (PyStr "ghs_issued")
                  (default_options sample_github)
                  (world_of [] [alice_identity; bot_identity])
                  client_with_bot
                  (world_of [] [alice_identity; bot_identity])
                  eq_refl)
               {| login_or_token := PyStr "gho_bot";
                  options := default_options sample_github |}
               eq_refl).
Defined.

(** The bot has a login but the provider stored no token for it. *)
Example init_without_bot_token :
  fst (GithubKiwiTCMSBot_init sample_github (PyStr "ghs_issued")
         (default_options sample_github)
         (world_of [] [alice_identity; bot_identity_without_token]))
  = inl (KeyError "access_token").
Proof. reflexivity. Qed.

(** ** Properties of the repository lookup *)

Section Lookup.
Variable github : GithubLibrary.
Variable self : GithubKiwiTCMSBot.
Variable full_name_or_id : string + Z.

Local Abbreviation lookup_request :=
  {| credential := login_or_token (requester self); verb := "GET";
     url := url_of full_name_or_id |}.

(** X9: when GitHub refuses the lookup, [get_repo] ends with that
    exception after exactly one request, which carried the credential of
    the client: the credential of the bot is not tried. *)
Theorem get_repo_lookup_failure lazy w e :
  fetch_repo github (login_or_token (requester self)) (url_of full_name_or_id)
    = inl e ->
  fst (get_repo github self full_name_or_id lazy w) = inl e /\
  requests (snd (get_repo github self full_name_or_id lazy w))
    = requests w ++ [lookup_request].
Proof.
  intros Hfail. rewrite get_repo_run, Hfail. split; reflexivity.
Qed.

(** X10: without a bot transport the repository keeps the transport of
    the client, public or not; and in every case the transport of the
    returned repository is either the client's or the bot's. *)
Theorem get_repo_requester_choice lazy w repo :
  fst (get_repo github self full_name_or_id lazy w) = inr repo ->
  (bot_requester self = None -> _requester repo = requester self) /\
  (_requester repo = requester self \/
   bot_requester self = Some (_requester repo)).
Proof.
  rewrite get_repo_run.
  destruct (fetch_repo github _ _) as [e | data]; [discriminate |].
  cbn. intros [= <-]. cbn.
  destruct (repo_private data), (bot_requester self); cbn; split; auto;
    discriminate.
Qed.

(** X11: a lazy lookup saves nothing: [get_repo] reads [repo.private]
    at once, so with [lazy=True] it sends the same single request and
    returns the same repository as with [lazy=False]. *)
Theorem get_repo_lazy_irrelevant w :
  get_repo github self full_name_or_id true w
  = get_repo github self full_name_or_id false w /\
  requests (snd (get_repo github self full_name_or_id true w))
  = requests w ++ [lookup_request].
Proof.
  rewrite !get_repo_run.
  split; [reflexivity |].
  destruct (fetch_repo github _ _); reflexivity.
Qed.
End Lookup.

Lemma get_repo_lookup_failure_witness :
  fst (get_repo sample_github
         {| requester :=
              {| login_or_token := PyStr "ghs_issued";
                 options := default_options sample_github |};
            bot_requester :=
              Some {| login_or_token := PyStr "gho_bot";
                      options := default_options sample_github |} |}
         (inl "kiwitcms/missing") false empty_world)
    = inl (Raise "UnknownObjectException" "404 Not Found") /\
  requests (snd (get_repo sample_github
                   {| requester :=
                        {| login_or_token := PyStr "ghs_issued";
                           options := default_options sample_github |};
                      bot_requester :=
                        Some {| login_or_token := PyStr "gho_bot";
                                options := default_options sample_github |} |}
                   (inl "kiwitcms/missing") false empty_world))
    = [{| credential := PyStr "ghs_issued"; verb := "GET";
          url := "/repos/kiwitcms/missing" |}].
Proof.
  apply (get_repo_lookup_failure sample_github
           {| requester :=
                {| login_or_token := PyStr "ghs_issued";
                   options := default_options sample_github |};
              bot_requester :=
                Some {| login_or_token := PyStr "gho_bot";
                        options := default_options sample_github |} |}
           (inl "kiwitcms/missing") false empty_world
           (Raise "UnknownObjectException" "404 Not Found") eq_refl).
Defined.

Lemma get_repo_requester_choice_witness :
  _requester (kiwi_repo_for (requester client_without_bot))
  = requester client_without_bot.
Proof.
  apply (proj1 (get_repo_requester_choice sample_github client_without_bot
                  (inl "kiwitcms/Kiwi") false empty_world
                  (kiwi_repo_for (requester client_without_bot)) eq_refl)
               eq_refl).
Defined.

(** ** Properties of the whole of _rpc_connection *)

Section Connection.
Variable github : GithubLibrary.
Variable settings : Settings.
Variable request : HttpRequest.
Variable w : World.

Local Abbreviation gh_app :=
  (new_GithubIntegration github (KIWI_GITHUB_APP_ID settings)
                         (KIWI_GITHUB_APP_PRIVATE_KEY settings)).

(** The three steps in a row: selection, token, client. *)
Lemma rpc_connection_run :
  _rpc_connection github settings request w =
    match fst (_rpc_connection_installation request w) with
    | inl e => (inl e, w)
    | inr installation =>
        match _find_token gh_app installation w with
        | (inl e, w1) => (inl e, w1)
        | (inr tok, w1) =>
            GithubKiwiTCMSBot_init github tok (default_options github) w1
        end
    end.
Proof.
  unfold _rpc_connection, bind. rewrite rpc_installation_run. cbn [fst].
  match goal with |- context [match ?l with [] => _ | _ => _ end] =>
    destruct l as [| i [| j l']] end; try reflexivity.
Qed.

(** X12: when no single installation can be selected, [_rpc_connection]
    raises the selection's exception before anything else happens: the
    issuer is not called, the cache is not written, no request is sent. *)
Theorem rpc_connection_without_installation e :
  fst (_rpc_connection_installation request w) = inl e ->
  _rpc_connection github settings request w = (inl e, w).
Proof. intros Hsel. rewrite rpc_connection_run, Hsel. reflexivity. Qed.

(** X13: when the installation is selected, its token is not in the
    cache and the issuer fails, [_rpc_connection] raises the issuer's
    exception: no client is built, the cache is what it was and the
    issuer has been called once. *)
Theorem rpc_connection_issuer_failure installation err :
  fst (_rpc_connection_installation request w) = inr installation ->
  truthy (cached (cache_key_for (AppInstallation.installation installation)) w)
    = false ->
  issue gh_app (issued w) (AppInstallation.installation installation)
    = inl err ->
  _rpc_connection github settings request w
  = (inl err,
     with_issued (issued w ++ [AppInstallation.installation installation]) w).
Proof.
  intros Hsel Hmiss Hfail.
  rewrite rpc_connection_run, Hsel, (find_token_miss_run _ _ _ Hmiss), Hfail.
  reflexivity.
Qed.

(** X14: when the token of the selected installation is in the cache,
    [_rpc_connection] is the client constructor applied to the cached
    token: it leaves the world as it was, calls no issuer and sends no
    request. *)
Theorem rpc_connection_cached installation :
  fst (_rpc_connection_installation request w) = inr installation ->
  truthy (cached (cache_key_for (AppInstallation.installation installation)) w)
    = true ->
  _rpc_connection github settings request w
  = GithubKiwiTCMSBot_init
      github (cached (cache_key_for (AppInstallation.installation installation)) w)
      (default_options github) w /\
  snd (_rpc_connection github settings request w) = w.
Proof.
  intros Hsel Hhit.
  rewrite rpc_connection_run, Hsel, (find_token_hit_run _ _ _ Hhit).
  split; [reflexivity | apply init_world].
Qed.

(** X15: every repository lookup made through the client that
    [_rpc_connection] returned is sent with the token that [_find_token]
    gave for the selected installation. *)
Theorem rpc_connection_lookup_credential self w' :
  _rpc_connection github settings request w = (inr self, w') ->
  exists installation tok,
    fst (_rpc_connection_installation request w) = inr installation /\
    fst (_find_token gh_app installation w) = inr tok /\
    w' = snd (_find_token gh_app installation w) /\
    forall full_name_or_id lazy w2,
      requests (snd (get_repo github self full_name_or_id lazy w2))
      = requests w2 ++ [{| credential := tok; verb := "GET";
                           url := url_of full_name_or_id |}].
Proof.
  rewrite rpc_connection_run.
  destruct (fst (_rpc_connection_installation request w))
    as [e | installation]; [discriminate |].
  destruct (_find_token gh_app installation w) as [[e | tok] w1] eqn:Hfind;
    [discriminate |].
  intros Hinit. exists installation, tok. rewrite Hfind.
  split; [reflexivity |]. split; [reflexivity |].
  pose proof (init_world github tok (default_options github) w1) as Hw.
  rewrite Hinit in Hw. cbn in Hw. split; [exact Hw |].
  destruct (init_requesters _ _ _ _ _ _ Hinit) as (_ & Hself & _).
  intros n lazy w2. rewrite get_repo_run, Hself. cbn.
  destruct (fetch_repo github tok (url_of n)); reflexivity.
Qed.
End Connection.

Lemma rpc_connection_without_installation_witness :
  _rpc_connection sample_github sample_settings (request_of 10 bob)
    (world_of [installation_7; installation_8] [alice_identity; bob_identity])
  = (inl (Exception "Cannot find GitHub App installation"),
     world_of [installation_7; installation_8] [alice_identity; bob_identity]).
Proof.
  apply (rpc_connection_without_installation sample_github sample_settings
           (request_of 10 bob)
           (world_of [installation_7; installation_8]
                     [alice_identity; bob_identity])
           (Exception "Cannot find GitHub App installation") eq_refl).
Defined.

Lemma rpc_connection_issuer_failure_witness :
  _rpc_connection github_refusing sample_settings (request_of 10 alice)
    tenant_world
  = (inl (Raise "GithubException" "401 Bad credentials"),
     with_issued [7] tenant_world).
Proof.
  apply (rpc_connection_issuer_failure github_refusing sample_settings
           (request_of 10 alice) tenant_world installation_7
           (Raise "GithubException" "401 Bad credentials")
           eq_refl eq_refl eq_refl).
Defined.

Lemma rpc_connection_cached_witness :
  snd (_rpc_connection sample_github sample_settings (request_of 10 alice)
         tenant_world_cached)
  = tenant_world_cached.
Proof.
  apply (proj2 (rpc_connection_cached sample_github sample_settings
                  (request_of 10 alice) tenant_world_cached installation_7
                  eq_refl eq_refl)).
Defined.

Lemma rpc_connection_lookup_credential_witness :
  exists tok,
    fst (_find_token issuer_ok installation_7 tenant_world) = inr tok /\
    requests (snd (get_repo sample_github client_with_bot
                     (inl "kiwitcms/Kiwi") false empty_world))
    = [{| credential := tok; verb := "GET"; url := "/repos/kiwitcms/Kiwi" |}].
Proof.
  destruct (rpc_connection_lookup_credential sample_github sample_settings
              (request_of 10 alice) tenant_world client_with_bot
              (snd (_find_token issuer_ok installation_7 tenant_world))
              eq_refl)
    as (installation & tok & Hsel & Htok & _ & Hreq).
  injection Hsel as <-. exists tok. split; [exact Htok |].
  apply (Hreq (inl "kiwitcms/Kiwi") false empty_world).
Defined.

(** The client of a warm cache carries the cached token. *)
Example rpc_connection_cached_client :
  fst (_rpc_connection sample_github sample_settings (request_of 10 bob)
         tenant_world_cached)
  = inr {| requester :=
             {| login_or_token := PyStr "ghs_cached";
                options := default_options sample_github |};
           bot_requester :=
             Some {| login_or_token := PyStr "gho_bot";
                     options := default_options sample_github |} |}.
Proof. reflexivity. Qed.

(** ** Integration.is_adding_testcase_to_issue_disabled *)

(** The integration is disabled when the tracker has no base URL, that is
    when [base_url] is None or empty (or another falsy value); any
    non-empty string enables it. *)
Lemma is_adding_testcase_to_issue_disabled_iff bug_system :
  (is_adding_testcase_to_issue_disabled bug_system = true <->
     BugSystem.base_url bug_system = PyNone \/
     BugSystem.base_url bug_system = PyStr "" \/
     BugSystem.base_url bug_system = PyInt 0 \/
     BugSystem.base_url bug_system = PyBool false) /\
  (forall s, BugSystem.base_url bug_system = PyStr s -> s ≠ "" ->
             is_adding_testcase_to_issue_disabled bug_system = false).
Proof.
  unfold is_adding_testcase_to_issue_disabled.
  destruct bug_system as [v]. cbn. split.
  - split.
    + intros Hd. apply negb_true_iff in Hd.
      destruct v as [| b | n | s]; cbn in Hd.
      * now left.
      * subst b. now right; right; right.
      * apply negb_false_iff, Z.eqb_eq in Hd. subst n. now right; right; left.
      * apply negb_false_iff, String.eqb_eq in Hd. subst s. now right; left.
    + intros [-> | [-> | [-> | ->]]]; reflexivity.
  - intros s -> Hne. cbn.
    destruct (String.eqb_spec s ""); [contradiction | reflexivity].
Qed.

(** ** WebhookPayload.__str__ *)

(** A text without apostrophe ends where the first apostrophe stands. *)
Lemma split_at_apostrophe a1 a2 r1 r2 :
  no_apostrophe a1 = true ->
  no_apostrophe a2 = true ->
  a1 +:+ String "'" r1 = a2 +:+ String "'" r2 ->
  a1 = a2 /\ r1 = r2.
Proof.
  revert a2. induction a1 as [| c a1 IH]; intros [| d a2] H1 H2 Heq;
    cbn in *.
  - injection Heq as ->. auto.
  - injection Heq as <- _. cbn in H2. discriminate.
  - injection Heq as -> _. cbn in H1. discriminate.
  - injection Heq as -> Heq.
    apply andb_true_iff in H1 as [_ H1]. apply andb_true_iff in H2 as [_ H2].
    destruct (IH a2 H1 H2 Heq) as [-> ->]. auto.
Qed.

(** Two texts that end with the same character after equal lengths. *)
Lemma append_char_inj d1 d2 c :
  d1 +:+ String c "" = d2 +:+ String c "" -> d1 = d2.
Proof.
  revert d2. induction d1 as [| x d1 IH]; intros [| y d2] Heq; cbn in *.
  - reflexivity.
  - injection Heq as _ Heq. destruct d2; discriminate.
  - injection Heq as _ Heq. destruct d1; discriminate.
  - injection Heq as -> Heq. f_equal. now apply IH.
Qed.

Section StrProperties.
Variable isoformat : Z -> string.

(** X17: the text of a payload tells its action, its sender and the text
    of its date, as long as the action and the sender hold no apostrophe:
    two such payloads with the same text agree on all three. *)
Theorem WebhookPayload_str_inj p q :
  no_apostrophe (WebhookPayload.action p) = true ->
  no_apostrophe (WebhookPayload.sender p) = true ->
  no_apostrophe (WebhookPayload.action q) = true ->
  no_apostrophe (WebhookPayload.sender q) = true ->
  WebhookPayload_str isoformat p = WebhookPayload_str isoformat q ->
  WebhookPayload.action p = WebhookPayload.action q /\
  WebhookPayload.sender p = WebhookPayload.sender q /\
  isoformat (WebhookPayload.received_on p)
    = isoformat (WebhookPayload.received_on q).
Proof.
  intros Hap Hsp Haq Hsq Heq. unfold WebhookPayload_str in Heq.
  apply (inj (String.app "WebhookPayload '")) in Heq.
  apply (split_at_apostrophe _ _ _ _ Hap Haq) in Heq as [Hact Heq].
  apply (inj (String.app " from '")) in Heq.
  apply (split_at_apostrophe _ _ _ _ Hsp Hsq) in Heq as [Hsend Heq].
  apply (inj (String.app " on '")) in Heq.
  apply append_char_inj in Heq. auto.
Qed.
End StrProperties.

Lemma WebhookPayload_str_inj_witness :
  "created" = "created" /\ "atodorov" = "atodorov" /\
  sample_isoformat 1000 = sample_isoformat 1000.
Proof.
  apply (WebhookPayload_str_inj sample_isoformat
           (WebhookPayload.Build "created" "atodorov" 1000 "{}")
           (WebhookPayload.Build "created" "atodorov" 1000 "{zen: 1}")
           eq_refl eq_refl eq_refl eq_refl eq_refl).
Defined.

(** Without that condition the text is ambiguous: an apostrophe in the
    action moves the border between action and sender. *)
Example WebhookPayload_str_ambiguous :
  WebhookPayload_str sample_isoformat
    (WebhookPayload.Build "a' from 'b" "c" 1000 "{}")
  = WebhookPayload_str sample_isoformat
      (WebhookPayload.Build "a" "b' from 'c" 1000 "{}").
Proof. reflexivity. Qed.

Example WebhookPayload_str_sample :
  WebhookPayload_str sample_isoformat
    (WebhookPayload.Build "created" "atodorov" 1000 "{}")
  = "WebhookPayload 'created' from 'atodorov' on 'T+1000'".
Proof. reflexivity. Qed.

(** ** The cache after a call *)

Section TokenCacheAfter.
Variable gh_app : GithubIntegration.
Variable installation : AppInstallation.t.

Local Abbreviation key :=
  (cache_key_for (AppInstallation.installation installation)).

(** X18: whenever [_find_token] returns a token, hit or miss, the cache
    answers that very token under the key of the installation right after
    the call. *)
Theorem find_token_result_is_cached w tok :
  fst (_find_token gh_app installation w) = inr tok ->
  cached key (snd (_find_token gh_app installation w)) = tok.
Proof.
  destruct (truthy (cached key w)) eqn:Ht.
  - rewrite (find_token_hit_run gh_app installation w Ht). cbn.
    now intros [= <-].
  - rewrite (find_token_miss_run gh_app installation w Ht).
    destruct (issue gh_app (issued w) _) as [err | auth]; cbn [fst snd];
      [discriminate |].
    intros [= <-]. unfold cached, fresh. cbn. rewrite lookup_insert_eq. cbn.
    destruct (Z.ltb_spec (now w) (now w + TOKEN_CACHE_TTL)) as [_ | Hge];
      [reflexivity | unfold TOKEN_CACHE_TTL in Hge; lia].
Qed.
End TokenCacheAfter.

Lemma find_token_result_is_cached_witness :
  cached (cache_key_for 7) (snd (_find_token issuer_ok installation_7 empty_world))
  = PyStr "ghs_issued".
Proof.
  apply (find_token_result_is_cached issuer_ok installation_7 empty_world
           (PyStr "ghs_issued") eq_refl).
Defined.
